(** * The [list_clusters] tool of the EKS MCP server

    A shallow embedding of
    [awslabs/eks_mcp_server/eks_cluster_handler.py] and the properties
    of its single operation.

    The handler talks to three collaborators: the MCP host (tool
    registration), the logging helper and the AWS client factory with
    the EKS client it returns.  Every call that crosses that boundary
    is recorded as an [Event] in a chronological trace; what the AWS
    side answers is given by an [AwsHelper] value.  Python's
    [try]/[except] is a small state-and-exception monad over the
    trace. *)

From stdpp Require Import gmap strings list fin_maps pretty.

Open Scope string_scope.
Open Scope list_scope.

(** ** Python data *)

Module Py.

(** Values stored in the keyword dict of the upstream call:
    an [int], a [str] or a [List[str]]. *)
Inductive value : Type :=
| VInt (n : Z)
| VStr (s : string)
| VList (l : list string).

#[global] Instance value_eq_dec : EqDecision value.
Proof. solve_decision. Defined.

(** An instance of Python's [Exception]: the name of its class and
    the text [str(e)] yields.  [except Exception] catches every such
    instance, whatever the class.  Interpreter exits and interrupts,
    which derive from [BaseException] only, are not failures of a
    collaborator and are not part of this model. *)
Record Exception : Type := mkException {
  exc_type : string;
  exc_str : string
}.

#[global] Instance Exception_eq_dec : EqDecision Exception.
Proof. solve_decision. Defined.

Definition str (e : Exception) : string := exc_str e.

(** [repr] of a [str] without quotes, backslashes or control
    characters: the text between single quotes. *)
Definition repr (s : string) : string := "'" +:+ s +:+ "'".

(** [KeyError(key)], as raised by [d[key]] on a missing key;
    [str(KeyError(key))] is [repr(key)]. *)
Definition KeyError (key : string) : Exception :=
  {| exc_type := "KeyError"; exc_str := repr key |}.

(** [len] of a list, as a Python [int]. *)
Definition len {A : Type} (l : list A) : Z := Z.of_nat (length l).

(** What a call does: it returns a value or raises. *)
Inductive outcome (A : Type) : Type :=
| Returned (a : A)
| Raised (e : Exception).
#[global] Arguments Returned {A} a.
#[global] Arguments Raised {A} e.

End Py.
Export Py.

(** ** Data contracts *)

(** [mcp.server.fastmcp.Context]: the host's handle for one request.
    The handler only passes it on to the logging helper. *)
Record Context : Type := { request_id : string }.

(** Modelled from the spec: [logging_helper.LogLevel] is not under
    src/; the logging surface takes a level in {INFO, ERROR}. *)
Inductive LogLevel : Type := INFO | ERROR.

#[global] Instance LogLevel_eq_dec : EqDecision LogLevel.
Proof. solve_decision. Defined.

(** [mcp.types.TextContent]. *)
Record TextContent : Type := {
  type : string;
  text : string
}.

(** Modelled from the spec: [models.ListClustersResponse] is not under
    src/; the response payload shape is
    [{isError: bool, content: [{type: "text", text: string}],
      clusters: [string], count: int, next_token: string|null}]. *)
Record ListClustersResponse : Type := {
  isError : bool;
  content : list TextContent;
  clusters : list string;
  count : Z;
  next_token : option string
}.

(** The dict returned by the upstream [list_clusters] call:
    [{clusters: sequence of string, nextToken?: string}].  A field is
    [None] when the dict has no such key. *)
Record UpstreamResult : Type := {
  clusters_key : option (list string);
  nextToken_key : option string
}.

(** [response['clusters']]: raises [KeyError] on a missing key. *)
Definition getitem_clusters (response : UpstreamResult) : outcome (list string) :=
  match clusters_key response with
  | Some v => Returned v
  | None => Raised (KeyError "clusters")
  end.

(** [response.get('nextToken')]: [None] on a missing key. *)
Definition get_nextToken (response : UpstreamResult) : option string :=
  nextToken_key response.

(** ** Collaborators *)

(** The boto3 EKS client: what [eks_client.list_clusters] does when
    called with the keywords of a dict. *)
Record EksClient : Type := {
  client_list_clusters : gmap string value -> outcome UpstreamResult
}.

(** [aws_helper.AwsHelper] is not under src/: what
    [AwsHelper.create_boto3_client(service)] does is a parameter of the
    handler. *)
Record AwsHelper : Type := {
  helper_create_boto3_client : string -> outcome EksClient
}.

(** The MCP server instance handed to the constructor. *)
Record FastMCP : Type := { server_name : string }.

(** The handler object: its only attribute is [self.mcp]. *)
Record EksClusterHandler : Type := { mcp : FastMCP }.

(** The methods of [EksClusterHandler] that are bound as tools. *)
Inductive Routine : Type := list_clusters_routine.

(** A bound method such as [self.list_clusters]. *)
Record BoundMethod : Type := {
  im_self : EksClusterHandler;
  im_func : Routine
}.

(** Calls that leave the handler, in the order they are made. *)
Inductive Event : Type :=
| ToolRegistered (server : FastMCP) (name : string) (fn : BoundMethod)
| Logged (ctx : Context) (level : LogLevel) (message : string)
| ClientCreated (service : string)
| ListClustersCalled (kwargs : gmap string value).

Definition Trace : Type := list Event.

(** ** Effects: a trace and exceptions *)

Module Effects.

Definition M (A : Type) : Type := Trace -> outcome A * Trace.

#[global] Instance M_ret : MRet M := fun A a t => (Returned a, t).

#[global] Instance M_bind : MBind M := fun A B f m t =>
  match m t with
  | (Returned a, t') => f a t'
  | (Raised e, t') => (Raised e, t')
  end.

(** Record one outgoing call. *)
Definition emit (ev : Event) : M unit := fun t => (Returned tt, t ++ [ev]).

(** Continue with what a call did. *)
Definition lift {A : Type} (o : outcome A) : M A := fun t => (o, t).

(** [try: body  except Exception as e: handler(e)].  The trace built
    by the body up to the raise is kept. *)
Definition try_except {A : Type} (body : M A) (handler : Exception -> M A) : M A :=
  fun t =>
    match body t with
    | (Returned a, t') => (Returned a, t')
    | (Raised e, t') => handler e t'
    end.

(** The events a computation adds to the trace it starts from. *)
Definition new_events {A : Type} (m : M A) (t : Trace) : Trace :=
  drop (length t) (m t).2.

End Effects.
Export Effects.

(** [log_with_request_id(ctx, level, message)]: fire and forget. *)
Definition log_with_request_id (ctx : Context) (level : LogLevel) (message : string) : M unit :=
  emit (Logged ctx level message).

(** [AwsHelper.create_boto3_client(service)]. *)
Definition create_boto3_client (aws : AwsHelper) (service : string) : M EksClient :=
  emit (ClientCreated service);; lift (helper_create_boto3_client aws service).

(** [eks_client.list_clusters], called with the keywords of [params]. *)
Definition eks_list_clusters (eks_client : EksClient) (params : gmap string value)
  : M UpstreamResult :=
  emit (ListClustersCalled params);; lift (client_list_clusters eks_client params).

(** [mcp.tool(name=name)(fn)]. *)
Definition mcp_tool (server : FastMCP) (name : string) (fn : BoundMethod) : M unit :=
  emit (ToolRegistered server name fn).

(** ** The handler *)

(** Lines 79-85: the keyword dict holds a key for each argument that
    is not [None]. *)
Definition build_params (max_results : option Z) (next_token : option string)
    (include : option (list string)) : gmap string value :=
  let params : gmap string value := ∅ in
  let params :=
    match max_results with
    | Some v => <["maxResults" := VInt v]> params
    | None => params
    end in
  let params :=
    match next_token with
    | Some v => <["nextToken" := VStr v]> params
    | None => params
    end in
  let params :=
    match include with
    | Some v => <["include" := VList v]> params
    | None => params
    end in
  params.

Definition list_clusters (aws : AwsHelper) (self : EksClusterHandler) (ctx : Context)
    (max_results : option Z) (next_token : option string)
    (include : option (list string)) : M ListClustersResponse :=
  try_except
    (log_with_request_id ctx INFO "Listing EKS clusters";;
     eks_client ← create_boto3_client aws "eks";
     let params := build_params max_results next_token include in
     response ← eks_list_clusters eks_client params;
     cluster_names ← lift (getitem_clusters response);
     let response_next_token := get_nextToken response in
     log_with_request_id ctx INFO
       ("Found " +:+ pretty (len cluster_names) +:+ " EKS clusters");;
     mret {| isError := false;
             content :=
               [ {| type := "text";
                    text := "Successfully listed " +:+ pretty (len cluster_names)
                              +:+ " EKS clusters" |} ];
             clusters := cluster_names;
             count := len cluster_names;
             next_token := response_next_token |})
    (fun e =>
       let error_msg := "Failed to list EKS clusters: " +:+ str e in
       log_with_request_id ctx ERROR error_msg;;
       mret {| isError := true;
               content := [ {| type := "text"; text := error_msg |} ];
               clusters := [];
               count := 0;
               next_token := None |}).

(** [EksClusterHandler.__init__(self, mcp)]. *)
Definition __init__ (mcp : FastMCP) : M EksClusterHandler :=
  let self := {| mcp := mcp |} in
  mcp_tool mcp "list_clusters" {| im_self := self; im_func := list_clusters_routine |};;
  mret self.

(** Calling a registered bound method runs the routine it is bound to. *)
Definition invoke (aws : AwsHelper) (fn : BoundMethod) (ctx : Context)
    (max_results : option Z) (next_token : option string)
    (include : option (list string)) : M ListClustersResponse :=
  match im_func fn with
  | list_clusters_routine =>
      list_clusters aws (im_self fn) ctx max_results next_token include
  end.

(** ** Reading a trace *)

(** The log entries of a trace: level and message, with the context
    they are tagged with. *)
Definition logged (t : Trace) : list (Context * LogLevel * string) :=
  omap (fun ev => match ev with
                  | Logged c l m => Some (c, l, m)
                  | _ => None
                  end) t.

(** The keyword dicts forwarded to the upstream [list_clusters]. *)
Definition upstream_calls (t : Trace) : list (gmap string value) :=
  omap (fun ev => match ev with
                  | ListClustersCalled k => Some k
                  | _ => None
                  end) t.

(** The tools registered with the host: server, name and routine. *)
Definition registrations (t : Trace) : list (FastMCP * string * BoundMethod) :=
  omap (fun ev => match ev with
                  | ToolRegistered s n f => Some (s, n, f)
                  | _ => None
                  end) t.


(** 1 for an argument that is not [None], 0 for [None]. *)
Definition supplied {A : Type} (o : option A) : nat :=
  match o with
  | Some _ => 1
  | None => 0
  end.

(** ** The scenarios of the unit tests *)

Module Scenarios.

Definition ctx0 : Context := {| request_id := "req-1" |}.
Definition server0 : FastMCP := {| server_name := "eks-mcp-server" |}.
Definition handler0 : EksClusterHandler := {| mcp := server0 |}.

(** A client whose [list_clusters] does the same for every call. *)
Definition mock_client (o : outcome UpstreamResult) : EksClient :=
  {| client_list_clusters := fun _ => o |}.

(** A factory that hands out the given client. *)
Definition mock_helper (c : EksClient) : AwsHelper :=
  {| helper_create_boto3_client := fun _ => Returned c |}.

(** A factory that raises. *)
Definition broken_helper (e : Exception) : AwsHelper :=
  {| helper_create_boto3_client := fun _ => Raised e |}.

(** A client that only answers the keyword dict of the fourth test
    and raises on any other. *)
Definition strict_client : EksClient :=
  {| client_list_clusters := fun kwargs =>
       if decide (kwargs = {[ "maxResults" := VInt 10;
                              "nextToken" := VStr "current_token";
                              "include" := VList ["all"] ]})
       then Returned {| clusters_key := Some ["cluster1"];
                        nextToken_key := Some "next_page_token" |}
       else Raised (mkException "ParamValidationError" "unexpected keywords") |}.

Definition api_error : Exception := mkException "Exception" "AWS API Error".

End Scenarios.

(** * Properties *)

(** ** Running the handler, case by case *)

Ltac run_handler :=
  unfold list_clusters, try_except, log_with_request_id, create_boto3_client,
    eks_list_clusters, mcp_tool, emit, lift, mbind, mret, M_bind, M_ret;
  cbn [fst snd].

(** The envelope and the message of the [except] branch. *)
Definition error_msg_of (e : Exception) : string :=
  "Failed to list EKS clusters: " +:+ str e.

Definition error_envelope (e : Exception) : ListClustersResponse :=
  {| isError := true;
     content := [ {| type := "text"; text := error_msg_of e |} ];
     clusters := [];
     count := 0;
     next_token := None |}.

(** The envelope of the [try] branch. *)
Definition success_envelope (cs : list string) (tok : option string)
  : ListClustersResponse :=
  {| isError := false;
     content := [ {| type := "text";
                     text := "Successfully listed " +:+ pretty (len cs)
                               +:+ " EKS clusters" |} ];
     clusters := cs;
     count := len cs;
     next_token := tok |}.

(** Level and message of the log entries of a trace, without the
    context they are tagged with. *)
Definition log_messages (t : Trace) : list (LogLevel * string) :=
  (fun entry => (entry.1.2, entry.2)) <$> logged t.

(** Two collaborators behave alike on a keyword dict: both factories
    raise the same failure, or both return a client and the two
    upstream calls return the same record or raise the same failure. *)
Definition same_behaviour (aws1 aws2 : AwsHelper) (params : gmap string value) : Prop :=
  match helper_create_boto3_client aws1 "eks", helper_create_boto3_client aws2 "eks" with
  | Raised e1, Raised e2 => e1 = e2
  | Returned c1, Returned c2 =>
      client_list_clusters c1 params = client_list_clusters c2 params
  | _, _ => False
  end.

(** What the envelope is once a client has been obtained: decided by
    the upstream call alone. *)
Definition envelope_of_upstream (o : outcome UpstreamResult) : ListClustersResponse :=
  match o with
  | Raised e => error_envelope e
  | Returned r =>
      match clusters_key r with
      | None => error_envelope (KeyError "clusters")
      | Some cs => success_envelope cs (nextToken_key r)
      end
  end.

Section Cases.

Variables (aws : AwsHelper) (self : EksClusterHandler) (ctx : Context).
Variables (max_results : option Z) (next_token : option string).
Variable include : option (list string).
Variable t : Trace.

Let params := build_params max_results next_token include.
Let run := list_clusters aws self ctx max_results next_token include.

Lemma run_factory_raises e :
  helper_create_boto3_client aws "eks" = Raised e ->
  run t = (Returned (error_envelope e),
           t ++ [ Logged ctx INFO "Listing EKS clusters";
                  ClientCreated "eks";
                  Logged ctx ERROR (error_msg_of e) ]).
Proof.
  intros Hf. subst run. run_handler. rewrite Hf.
  by rewrite <- !app_assoc.
Qed.

Lemma run_upstream_raises c e :
  helper_create_boto3_client aws "eks" = Returned c ->
  client_list_clusters c params = Raised e ->
  run t = (Returned (error_envelope e),
           t ++ [ Logged ctx INFO "Listing EKS clusters";
                  ClientCreated "eks";
                  ListClustersCalled params;
                  Logged ctx ERROR (error_msg_of e) ]).
Proof.
  intros Hf Hu. subst run params. run_handler. rewrite Hf, Hu.
  by rewrite <- !app_assoc.
Qed.

Lemma run_missing_clusters c r :
  helper_create_boto3_client aws "eks" = Returned c ->
  client_list_clusters c params = Returned r ->
  clusters_key r = None ->
  run t = (Returned (error_envelope (KeyError "clusters")),
           t ++ [ Logged ctx INFO "Listing EKS clusters";
                  ClientCreated "eks";
                  ListClustersCalled params;
                  Logged ctx ERROR (error_msg_of (KeyError "clusters")) ]).
Proof.
  intros Hf Hu Hk. subst run params. run_handler. rewrite Hf, Hu.
  unfold getitem_clusters. rewrite Hk.
  by rewrite <- !app_assoc.
Qed.

Lemma run_success c r cs :
  helper_create_boto3_client aws "eks" = Returned c ->
  client_list_clusters c params = Returned r ->
  clusters_key r = Some cs ->
  run t = (Returned (success_envelope cs (nextToken_key r)),
           t ++ [ Logged ctx INFO "Listing EKS clusters";
                  ClientCreated "eks";
                  ListClustersCalled params;
                  Logged ctx INFO
                    ("Found " +:+ pretty (len cs) +:+ " EKS clusters") ]).
Proof.
  intros Hf Hu Hk. subst run params. run_handler. rewrite Hf, Hu.
  unfold getitem_clusters, get_nextToken. rewrite Hk.
  by rewrite <- !app_assoc.
Qed.

End Cases.

Lemma new_events_app {A : Type} (m : M A) (t d : Trace) (o : outcome A) :
  m t = (o, t ++ d) -> new_events m t = d.
Proof. intros H. unfold new_events. rewrite H. apply drop_app_length. Qed.

(** ** The unit tests of the repository, replayed on the model *)

Module Tests.
Import Scenarios.

Example test_init :
  __init__ server0 []
  = (Returned {| mcp := server0 |},
     [ ToolRegistered server0 "list_clusters"
         {| im_self := {| mcp := server0 |}; im_func := list_clusters_routine |} ]).
Proof. reflexivity. Qed.

Example test_list_clusters_success :
  let upstream := {| clusters_key := Some ["cluster1"; "cluster2"; "cluster3"];
                     nextToken_key := None |} in
  let response :=
    (list_clusters (mock_helper (mock_client (Returned upstream)))
       handler0 ctx0 None None None []).1 in
  response
  = Returned {| isError := false;
                content := [ {| type := "text";
                                text := "Successfully listed 3 EKS clusters" |} ];
                clusters := ["cluster1"; "cluster2"; "cluster3"];
                count := 3;
                next_token := None |}.
Proof. reflexivity. Qed.

Example test_list_clusters_empty :
  let upstream := {| clusters_key := Some []; nextToken_key := None |} in
  let response :=
    (list_clusters (mock_helper (mock_client (Returned upstream)))
       handler0 ctx0 None None None []).1 in
  response
  = Returned {| isError := false;
                content := [ {| type := "text";
                                text := "Successfully listed 0 EKS clusters" |} ];
                clusters := [];
                count := 0;
                next_token := None |}.
Proof. reflexivity. Qed.

Example test_list_clusters_failure :
  let response :=
    (list_clusters (mock_helper (mock_client (Raised api_error)))
       handler0 ctx0 None None None []).1 in
  response
  = Returned {| isError := true;
                content := [ {| type := "text";
                                text := "Failed to list EKS clusters: AWS API Error" |} ];
                clusters := [];
                count := 0;
                next_token := None |}.
Proof. reflexivity. Qed.

Example test_list_clusters_with_all_parameters :
  let run :=
    list_clusters (mock_helper strict_client) handler0 ctx0
      (Some 10%Z) (Some "current_token") (Some ["all"]) in
  (exists response,
     (run []).1 = Returned response
     /\ isError response = false
     /\ clusters response = ["cluster1"]
     /\ next_token response = Some "next_page_token")
  /\ upstream_calls (run []).2
     = [ {[ "maxResults" := VInt 10;
            "nextToken" := VStr "current_token";
            "include" := VList ["all"] ]} ].
Proof. vm_compute. split; [eexists; split; [reflexivity|done] | reflexivity]. Qed.

(** A record without ['clusters']: [KeyError('clusters')] is caught and
    rendered with the quotes of [repr]. *)
Example missing_clusters_key :
  let upstream := {| clusters_key := None; nextToken_key := Some "t" |} in
  list_clusters (mock_helper (mock_client (Returned upstream)))
    handler0 ctx0 None None None []
  = (Returned {| isError := true;
                 content := [ {| type := "text";
                                 text := "Failed to list EKS clusters: 'clusters'" |} ];
                 clusters := [];
                 count := 0;
                 next_token := None |},
     [ Logged ctx0 INFO "Listing EKS clusters";
       ClientCreated "eks";
       ListClustersCalled ∅;
       Logged ctx0 ERROR "Failed to list EKS clusters: 'clusters'" ]).
Proof. reflexivity. Qed.

End Tests.

(** ** Every run *)

(** Whatever the collaborators do, the handler returns an envelope and
    adds a start entry, the outgoing calls and one completion entry. *)
Lemma run_total aws self ctx max_results next_token include t :
  exists resp d level message,
    list_clusters aws self ctx max_results next_token include t
      = (Returned resp, t ++ d)
    /\ logged d = [ (ctx, INFO, "Listing EKS clusters"); (ctx, level, message) ]
    /\ level = (if isError resp then ERROR else INFO)
    /\ count resp = len (clusters resp).
Proof.
  destruct (helper_create_boto3_client aws "eks") as [c|e] eqn:Hf.
  - destruct (client_list_clusters c (build_params max_results next_token include))
      as [r|e] eqn:Hu.
    + destruct (clusters_key r) as [cs|] eqn:Hk.
      * eexists _, _, _, _. split; [by eapply run_success|]. done.
      * eexists _, _, _, _. split; [by eapply run_missing_clusters|]. done.
    + eexists _, _, _, _. split; [by eapply run_upstream_raises|]. done.
  - eexists _, _, _, _. split; [by eapply run_factory_raises|]. done.
Qed.

(** Once a client has been obtained, exactly one upstream call is made,
    with the dict of [build_params], and its outcome decides the
    envelope. *)
Lemma run_with_client aws self ctx max_results next_token include t c :
  helper_create_boto3_client aws "eks" = Returned c ->
  let params := build_params max_results next_token include in
  let run := list_clusters aws self ctx max_results next_token include in
  (run t).1 = Returned (envelope_of_upstream (client_list_clusters c params))
  /\ upstream_calls (new_events run t) = [params].
Proof.
  intros Hf params run. subst params run.
  destruct (client_list_clusters c (build_params max_results next_token include))
    as [r|e] eqn:Hu.
  - destruct (clusters_key r) as [cs|] eqn:Hk.
    + pose proof (run_success aws self ctx _ _ _ t c r cs Hf Hu Hk) as H.
      rewrite (new_events_app _ _ _ _ H), H. cbn. by rewrite Hk.
    + pose proof (run_missing_clusters aws self ctx _ _ _ t c r Hf Hu Hk) as H.
      rewrite (new_events_app _ _ _ _ H), H. cbn. by rewrite Hk.
  - pose proof (run_upstream_raises aws self ctx _ _ _ t c e Hf Hu) as H.
    by rewrite (new_events_app _ _ _ _ H), H.
Qed.

(** The keys of the dict built at lines 79-85. *)
Lemma build_params_lookup max_results next_token include :
  let params := build_params max_results next_token include in
  params !! "maxResults" = VInt <$> max_results
  /\ params !! "nextToken" = VStr <$> next_token
  /\ params !! "include" = VList <$> include
  /\ forall key : string,
       key ∉ ["maxResults"; "nextToken"; "include"] -> params !! key = None.
Proof.
  unfold build_params.
  repeat split.
  - destruct max_results, next_token, include; by simplify_map_eq.
  - destruct max_results, next_token, include; by simplify_map_eq.
  - destruct max_results, next_token, include; by simplify_map_eq.
  - intros key Hkey.
    rewrite !not_elem_of_cons in Hkey. destruct Hkey as (H1 & H2 & H3 & _).
    destruct max_results, next_token, include; by simplify_map_eq.
Qed.

(** ** The parameter bag *)

(** C1: for every combination of the three optional arguments, once
    the client factory has returned a client, the handler makes exactly
    one upstream call, and the keyword dict of that call holds
    [maxResults], [nextToken] and [include] exactly for the arguments
    that were supplied, each with the caller's value unchanged, and no
    other key. *)
Theorem list_clusters_forwards_supplied_fields
    aws self ctx (max_results : option Z) (next_token : option string)
    (include : option (list string)) t c :
  helper_create_boto3_client aws "eks" = Returned c ->
  exists kwargs : gmap string value,
    upstream_calls
      (new_events (list_clusters aws self ctx max_results next_token include) t)
      = [kwargs]
    /\ kwargs !! "maxResults" = VInt <$> max_results
    /\ kwargs !! "nextToken" = VStr <$> next_token
    /\ kwargs !! "include" = VList <$> include
    /\ forall key : string,
         key ∉ ["maxResults"; "nextToken"; "include"] -> kwargs !! key = None.
Proof.
  intros Hf. exists (build_params max_results next_token include).
  split.
  - by apply (run_with_client aws self ctx max_results next_token include t c Hf).
  - apply build_params_lookup.
Qed.

Lemma list_clusters_forwards_supplied_fields_witness :
  exists kwargs : gmap string value,
    upstream_calls
      (new_events
         (list_clusters (Scenarios.mock_helper Scenarios.strict_client)
            Scenarios.handler0 Scenarios.ctx0
            (Some 10%Z) None (Some ["all"])) [])
      = [kwargs]
    /\ kwargs !! "maxResults" = VInt <$> Some 10%Z
    /\ kwargs !! "nextToken" = VStr <$> None
    /\ kwargs !! "include" = VList <$> Some ["all"]
    /\ forall key : string,
         key ∉ ["maxResults"; "nextToken"; "include"] -> kwargs !! key = None.
Proof.
  apply (list_clusters_forwards_supplied_fields
           (Scenarios.mock_helper Scenarios.strict_client)
           Scenarios.handler0 Scenarios.ctx0
           (Some 10%Z) None (Some ["all"]) [] Scenarios.strict_client).
  reflexivity.
Defined.

(** C8: no client-side validation.  For every integer [n] given as
    [max_results], inside [1,100] or not, and every list [l] given as
    [include], whatever its elements, the upstream call receives [n]
    and [l] unchanged, and the envelope is decided by what the upstream
    call does with them: the handler itself neither rejects nor
    clamps. *)
Theorem list_clusters_no_validation
    aws self ctx (n : Z) (next_token : option string) (l : list string) t c :
  helper_create_boto3_client aws "eks" = Returned c ->
  exists kwargs : gmap string value,
    upstream_calls
      (new_events (list_clusters aws self ctx (Some n) next_token (Some l)) t)
      = [kwargs]
    /\ kwargs !! "maxResults" = Some (VInt n)
    /\ kwargs !! "include" = Some (VList l)
    /\ (list_clusters aws self ctx (Some n) next_token (Some l) t).1
       = Returned (envelope_of_upstream (client_list_clusters c kwargs)).
Proof.
  intros Hf. exists (build_params (Some n) next_token (Some l)).
  destruct (run_with_client aws self ctx (Some n) next_token (Some l) t c Hf)
    as [Hres Hcalls].
  destruct (build_params_lookup (Some n) next_token (Some l))
    as (Hmax & _ & Hinc & _).
  done.
Qed.

Lemma list_clusters_no_validation_witness :
  exists kwargs : gmap string value,
    upstream_calls
      (new_events
         (list_clusters
            (Scenarios.mock_helper
               (Scenarios.mock_client
                  (Returned {| clusters_key := Some ["c1"]; nextToken_key := None |})))
            Scenarios.handler0 Scenarios.ctx0
            (Some (-5)%Z) None (Some ["everything"; ""])) [])
      = [kwargs]
    /\ kwargs !! "maxResults" = Some (VInt (-5))
    /\ kwargs !! "include" = Some (VList ["everything"; ""])
    /\ (list_clusters
          (Scenarios.mock_helper
             (Scenarios.mock_client
                (Returned {| clusters_key := Some ["c1"]; nextToken_key := None |})))
          Scenarios.handler0 Scenarios.ctx0
          (Some (-5)%Z) None (Some ["everything"; ""]) []).1
       = Returned
           (envelope_of_upstream
              (client_list_clusters
                 (Scenarios.mock_client
                    (Returned {| clusters_key := Some ["c1"]; nextToken_key := None |}))
                 kwargs)).
Proof.
  apply (list_clusters_no_validation
           (Scenarios.mock_helper
              (Scenarios.mock_client
                 (Returned {| clusters_key := Some ["c1"]; nextToken_key := None |})))
           Scenarios.handler0 Scenarios.ctx0 (-5)%Z None ["everything"; ""] []).
  reflexivity.
Defined.

(** ** The success path *)

(** C2: when the upstream call returns a record with cluster list [cs]
    and optional continuation token [tok], the handler returns the
    envelope with [isError = false], the single text message
    "Successfully listed {len(cs)} EKS clusters", [clusters = cs],
    [count = len(cs)] and [next_token = tok]. *)
Theorem list_clusters_success_envelope
    aws self ctx max_results next_token include t c
    (cs : list string) (tok : option string) :
  helper_create_boto3_client aws "eks" = Returned c ->
  client_list_clusters c (build_params max_results next_token include)
    = Returned {| clusters_key := Some cs; nextToken_key := tok |} ->
  (list_clusters aws self ctx max_results next_token include t).1
    = Returned
        {| isError := false;
           content :=
             [ {| type := "text";
                  text := "Successfully listed " +:+ pretty (len cs)
                            +:+ " EKS clusters" |} ];
           clusters := cs;
           count := len cs;
           next_token := tok |}.
Proof.
  intros Hf Hu.
  by rewrite (run_success aws self ctx _ _ _ t c _ cs Hf Hu eq_refl).
Qed.

Lemma list_clusters_success_envelope_witness :
  (list_clusters (Scenarios.mock_helper Scenarios.strict_client)
     Scenarios.handler0 Scenarios.ctx0
     (Some 10%Z) (Some "current_token") (Some ["all"]) []).1
    = Returned
        {| isError := false;
           content :=
             [ {| type := "text"; text := "Successfully listed 1 EKS clusters" |} ];
           clusters := ["cluster1"];
           count := 1;
           next_token := Some "next_page_token" |}.
Proof.
  apply (list_clusters_success_envelope
           (Scenarios.mock_helper Scenarios.strict_client)
           Scenarios.handler0 Scenarios.ctx0
           (Some 10%Z) (Some "current_token") (Some ["all"]) []
           Scenarios.strict_client ["cluster1"] (Some "next_page_token")).
  - reflexivity.
  - vm_compute. reflexivity.
Defined.

(** ** The error path *)

(** C3: whatever failure [e] the client factory or the upstream call
    raises, the handler returns the envelope with [isError = true],
    [clusters = []], [count = 0], no [next_token] and the single text
    message "Failed to list EKS clusters: " followed by [str(e)]; that
    same string is the one entry logged at error level. *)
Theorem list_clusters_failure_envelope
    aws self ctx max_results next_token include t (e : Exception) :
  helper_create_boto3_client aws "eks" = Raised e
  \/ (exists c,
        helper_create_boto3_client aws "eks" = Returned c
        /\ client_list_clusters c (build_params max_results next_token include)
           = Raised e) ->
  let run := list_clusters aws self ctx max_results next_token include in
  (run t).1
    = Returned
        {| isError := true;
           content :=
             [ {| type := "text";
                  text := "Failed to list EKS clusters: " +:+ str e |} ];
           clusters := [];
           count := 0;
           next_token := None |}
  /\ logged (new_events run t)
     = [ (ctx, INFO, "Listing EKS clusters");
         (ctx, ERROR, "Failed to list EKS clusters: " +:+ str e) ].
Proof.
  intros [Hf | (c & Hf & Hu)] run; subst run.
  - pose proof (run_factory_raises aws self ctx max_results next_token include t e Hf)
      as H.
    by rewrite (new_events_app _ _ _ _ H), H.
  - pose proof (run_upstream_raises aws self ctx max_results next_token include t c e
                  Hf Hu) as H.
    by rewrite (new_events_app _ _ _ _ H), H.
Qed.

Lemma list_clusters_failure_envelope_witness :
  let run :=
    list_clusters
      (Scenarios.mock_helper (Scenarios.mock_client (Raised Scenarios.api_error)))
      Scenarios.handler0 Scenarios.ctx0 None None None in
  (run []).1
    = Returned
        {| isError := true;
           content :=
             [ {| type := "text";
                  text := "Failed to list EKS clusters: " +:+ str Scenarios.api_error |} ];
           clusters := [];
           count := 0;
           next_token := None |}
  /\ logged (new_events run [])
     = [ (Scenarios.ctx0, INFO, "Listing EKS clusters");
         (Scenarios.ctx0, ERROR,
          "Failed to list EKS clusters: " +:+ str Scenarios.api_error) ].
Proof.
  apply (list_clusters_failure_envelope
           (Scenarios.mock_helper (Scenarios.mock_client (Raised Scenarios.api_error)))
           Scenarios.handler0 Scenarios.ctx0 None None None [] Scenarios.api_error).
  right. exists (Scenarios.mock_client (Raised Scenarios.api_error)).
  split; reflexivity.
Defined.

(** C9: the two keys of the upstream record are read differently.  A
    record without ['clusters'] gives the error envelope; a record with
    ['clusters'] and without ['nextToken'] gives a success envelope
    whose [next_token] is absent. *)
Theorem list_clusters_missing_keys
    aws self ctx max_results page_token include t c (r : UpstreamResult) :
  helper_create_boto3_client aws "eks" = Returned c ->
  client_list_clusters c (build_params max_results page_token include) = Returned r ->
  exists resp,
    (list_clusters aws self ctx max_results page_token include t).1 = Returned resp
    /\ (clusters_key r = None -> isError resp = true)
    /\ (forall cs, clusters_key r = Some cs -> nextToken_key r = None ->
          isError resp = false /\ clusters resp = cs /\ next_token resp = None).
Proof.
  intros Hf Hu.
  destruct (run_with_client aws self ctx max_results page_token include t c Hf)
    as [Hres _].
  rewrite Hu in Hres. eexists. split; [exact Hres|].
  cbn. split.
  - by intros ->.
  - intros cs -> Htok. by rewrite Htok.
Qed.

Lemma list_clusters_missing_keys_witness :
  (exists resp,
     (list_clusters
        (Scenarios.mock_helper
           (Scenarios.mock_client
              (Returned {| clusters_key := None; nextToken_key := Some "tok" |})))
        Scenarios.handler0 Scenarios.ctx0 None None None []).1 = Returned resp
     /\ isError resp = true)
  /\ (exists resp,
        (list_clusters
           (Scenarios.mock_helper
              (Scenarios.mock_client
                 (Returned {| clusters_key := Some ["cluster1"]; nextToken_key := None |})))
           Scenarios.handler0 Scenarios.ctx0 None None None []).1 = Returned resp
        /\ isError resp = false /\ clusters resp = ["cluster1"]
        /\ next_token resp = None).
Proof.
  split.
  - destruct (list_clusters_missing_keys
                (Scenarios.mock_helper
                   (Scenarios.mock_client
                      (Returned {| clusters_key := None; nextToken_key := Some "tok" |})))
                Scenarios.handler0 Scenarios.ctx0 None None None []
                _ _ eq_refl eq_refl) as (resp & Hres & Hmissing & _).
    exists resp. split; [exact Hres | exact (Hmissing eq_refl)].
  - destruct (list_clusters_missing_keys
                (Scenarios.mock_helper
                   (Scenarios.mock_client
                      (Returned {| clusters_key := Some ["cluster1"];
                                   nextToken_key := None |})))
                Scenarios.handler0 Scenarios.ctx0 None None None []
                _ _ eq_refl eq_refl) as (resp & Hres & _ & Hpresent).
    exists resp. split; [exact Hres | exact (Hpresent ["cluster1"] eq_refl eq_refl)].
Defined.

(** ** Every invocation *)

(** C4: the envelope returned by the handler, on the success path and
    on the error path alike, has [count == len(clusters)]. *)
Theorem list_clusters_count_is_len aws self ctx max_results page_token include t :
  exists resp,
    (list_clusters aws self ctx max_results page_token include t).1 = Returned resp
    /\ count resp = len (clusters resp).
Proof.
  destruct (run_total aws self ctx max_results page_token include t)
    as (resp & d & level & message & Hrun & _ & _ & Hcount).
  exists resp. by rewrite Hrun.
Qed.

(** C5: for every context, every combination of arguments and every
    behaviour of the client factory and of the upstream call, the
    handler returns a response envelope; no exception leaves it. *)
Theorem list_clusters_never_raises aws self ctx max_results page_token include t :
  (exists resp,
     (list_clusters aws self ctx max_results page_token include t).1 = Returned resp)
  /\ forall e,
       (list_clusters aws self ctx max_results page_token include t).1 <> Raised e.
Proof.
  destruct (run_total aws self ctx max_results page_token include t)
    as (resp & d & level & message & Hrun & _).
  rewrite Hrun. split; [by exists resp | done].
Qed.

(** C6: every invocation adds exactly two log entries: the
    informational start entry, then one completion entry, informational
    when the envelope is a success and error-level when it is a
    failure. *)
Theorem list_clusters_two_log_entries aws self ctx max_results page_token include t :
  let run := list_clusters aws self ctx max_results page_token include in
  exists resp level message,
    (run t).1 = Returned resp
    /\ logged (new_events run t)
       = [ (ctx, INFO, "Listing EKS clusters"); (ctx, level, message) ]
    /\ level = (if isError resp then ERROR else INFO).
Proof.
  intros run. subst run.
  destruct (run_total aws self ctx max_results page_token include t)
    as (resp & d & level & message & Hrun & Hlog & Hlevel & _).
  exists resp, level, message.
  by rewrite (new_events_app _ _ _ _ Hrun), Hrun.
Qed.

(** ** Construction *)

(** C7: constructing the handler makes one call to the host, which
    registers the bound method [self.list_clusters] under the name
    ['list_clusters']; invoking what was registered runs
    [list_clusters]; nothing else is added to the trace, no log entry
    and no AWS call. *)
Theorem init_registers_list_clusters (server : FastMCP) (t : Trace) :
  let self := {| mcp := server |} in
  let fn := {| im_self := self; im_func := list_clusters_routine |} in
  __init__ server t = (Returned self, t ++ [ ToolRegistered server "list_clusters" fn ])
  /\ registrations (new_events (__init__ server) t) = [ (server, "list_clusters", fn) ]
  /\ length (new_events (__init__ server) t) = 1
  /\ forall aws ctx max_results page_token include,
       invoke aws fn ctx max_results page_token include
       = list_clusters aws self ctx max_results page_token include.
Proof.
  intros self fn.
  assert (Hrun : __init__ server t
                 = (Returned self, t ++ [ ToolRegistered server "list_clusters" fn ]))
    by reflexivity.
  by rewrite (new_events_app _ _ _ _ Hrun).
Qed.

(** ** Determinism *)

(** C10: two invocations with the same arguments, whose client factory
    and upstream call behave alike, return the same envelope and emit
    the same log messages, whatever the two contexts, handler objects
    and earlier traces are. *)
Theorem list_clusters_deterministic
    aws1 aws2 self1 self2 ctx1 ctx2 max_results page_token include t1 t2 :
  same_behaviour aws1 aws2 (build_params max_results page_token include) ->
  let run1 := list_clusters aws1 self1 ctx1 max_results page_token include in
  let run2 := list_clusters aws2 self2 ctx2 max_results page_token include in
  (run1 t1).1 = (run2 t2).1
  /\ log_messages (new_events run1 t1) = log_messages (new_events run2 t2).
Proof.
  intros Hsame run1 run2. subst run1 run2. unfold same_behaviour in Hsame.
  destruct (helper_create_boto3_client aws1 "eks") as [c1|e1] eqn:Hf1;
    destruct (helper_create_boto3_client aws2 "eks") as [c2|e2] eqn:Hf2;
    try done.
  - destruct (client_list_clusters c1 _) as [r|e] eqn:Hu1; symmetry in Hsame.
    + destruct (clusters_key r) as [cs|] eqn:Hk.
      * pose proof (run_success aws1 self1 ctx1 _ _ _ t1 c1 r cs Hf1 Hu1 Hk) as H1.
        pose proof (run_success aws2 self2 ctx2 _ _ _ t2 c2 r cs Hf2 Hsame Hk) as H2.
        by rewrite (new_events_app _ _ _ _ H1), (new_events_app _ _ _ _ H2), H1, H2.
      * pose proof (run_missing_clusters aws1 self1 ctx1 _ _ _ t1 c1 r Hf1 Hu1 Hk) as H1.
        pose proof (run_missing_clusters aws2 self2 ctx2 _ _ _ t2 c2 r Hf2 Hsame Hk) as H2.
        by rewrite (new_events_app _ _ _ _ H1), (new_events_app _ _ _ _ H2), H1, H2.
    + pose proof (run_upstream_raises aws1 self1 ctx1 _ _ _ t1 c1 e Hf1 Hu1) as H1.
      pose proof (run_upstream_raises aws2 self2 ctx2 _ _ _ t2 c2 e Hf2 Hsame) as H2.
      by rewrite (new_events_app _ _ _ _ H1), (new_events_app _ _ _ _ H2), H1, H2.
  - subst e2.
    pose proof (run_factory_raises aws1 self1 ctx1 max_results page_token include t1 e1 Hf1)
      as H1.
    pose proof (run_factory_raises aws2 self2 ctx2 max_results page_token include t2 e1 Hf2)
      as H2.
    by rewrite (new_events_app _ _ _ _ H1), (new_events_app _ _ _ _ H2), H1, H2.
Qed.

Lemma list_clusters_deterministic_witness :
  let run1 :=
    list_clusters (Scenarios.mock_helper Scenarios.strict_client)
      Scenarios.handler0 Scenarios.ctx0
      (Some 10%Z) (Some "current_token") (Some ["all"]) in
  let run2 :=
    list_clusters
      (Scenarios.mock_helper
         (Scenarios.mock_client
            (Returned {| clusters_key := Some ["cluster1"];
                         nextToken_key := Some "next_page_token" |})))
      {| mcp := {| server_name := "other" |} |} {| request_id := "req-2" |}
      (Some 10%Z) (Some "current_token") (Some ["all"]) in
  (run1 []).1 = (run2 [ ClientCreated "s3" ]).1
  /\ log_messages (new_events run1 [])
     = log_messages (new_events run2 [ ClientCreated "s3" ]).
Proof.
  apply (list_clusters_deterministic
           (Scenarios.mock_helper Scenarios.strict_client)
           (Scenarios.mock_helper
              (Scenarios.mock_client
                 (Returned {| clusters_key := Some ["cluster1"];
                              nextToken_key := Some "next_page_token" |})))
           Scenarios.handler0 {| mcp := {| server_name := "other" |} |}
           Scenarios.ctx0 {| request_id := "req-2" |}
           (Some 10%Z) (Some "current_token") (Some ["all"])
           [] [ ClientCreated "s3" ]).
  vm_compute. reflexivity.
Defined.

(** * Further properties of the handler *)

(** Case analysis on what the factory and the upstream call do, with
    the matching equation for the run from [t] as [H]. *)
Ltac run_cases aws self ctx mr tok inc t H :=
  let c := fresh "c" in
  let e := fresh "e" in
  let r := fresh "r" in
  let cs := fresh "cs" in
  let Hf := fresh "Hf" in
  let Hu := fresh "Hu" in
  let Hk := fresh "Hk" in
  destruct (helper_create_boto3_client aws "eks") as [c|e] eqn:Hf;
  [ destruct (client_list_clusters c (build_params mr tok inc)) as [r|e] eqn:Hu;
    [ destruct (clusters_key r) as [cs|] eqn:Hk;
      [ pose proof (run_success aws self ctx mr tok inc t c r cs Hf Hu Hk) as H
      | pose proof (run_missing_clusters aws self ctx mr tok inc t c r Hf Hu Hk) as H ]
    | pose proof (run_upstream_raises aws self ctx mr tok inc t c e Hf Hu) as H ]
  | pose proof (run_factory_raises aws self ctx mr tok inc t e Hf) as H ].


(** ** The outgoing calls of one invocation *)

(** X1: the calls an invocation makes are, in this order: the start
    log entry, one request to the client factory, for the service
    ['eks'], the upstream call when the factory returned a client and
    none when it raised, and the completion log entry.  Nothing is
    retried and no tool is registered. *)
Theorem list_clusters_call_sequence aws self ctx max_results page_token include t :
  let params := build_params max_results page_token include in
  let run := list_clusters aws self ctx max_results page_token include in
  exists level message,
    new_events run t
    = [ Logged ctx INFO "Listing EKS clusters"; ClientCreated "eks" ]
      ++ match helper_create_boto3_client aws "eks" with
         | Returned _ => [ ListClustersCalled params ]
         | Raised _ => []
         end
      ++ [ Logged ctx level message ].
Proof.
  intros params run. subst params run.
  run_cases aws self ctx max_results page_token include t H;
    rewrite (new_events_app _ _ _ _ H); by eexists _, _.
Qed.

(** X2: the envelope is a success exactly when the factory returned a
    client and the upstream call returned a record that has the key
    ['clusters']; every other course of events gives [isError = true]. *)
Theorem list_clusters_is_error_iff aws self ctx max_results page_token include t :
  exists resp,
    (list_clusters aws self ctx max_results page_token include t).1 = Returned resp
    /\ (isError resp = false
        <-> exists c r cs,
              helper_create_boto3_client aws "eks" = Returned c
              /\ client_list_clusters c (build_params max_results page_token include)
                 = Returned r
              /\ clusters_key r = Some cs).
Proof.
  run_cases aws self ctx max_results page_token include t H;
    rewrite H; eexists; (split; [reflexivity|]); cbn; split; try done.
  - intros _. by exists c, r, cs.
  - intros (c' & r' & cs' & [= <-] & Hu' & Hk'). congruence.
  - intros (c' & r' & cs' & [= <-] & Hu' & Hk'). congruence.
  - intros (c' & r' & cs' & Hf' & _). congruence.
Qed.

(** ** What an envelope says about its run *)

(** X3: an envelope with [isError = true], whichever way the run
    failed (the factory raised, the upstream call raised, or the record
    had no ['clusters']), has no clusters, a zero count and no
    [next_token]; its single text is "Failed to list EKS clusters: "
    followed by a detail, and that same text is the run's completion
    log entry, at error level. *)
Theorem list_clusters_error_invariant
    aws self ctx max_results page_token include t resp :
  let run := list_clusters aws self ctx max_results page_token include in
  (run t).1 = Returned resp ->
  isError resp = true ->
  clusters resp = [] /\ count resp = 0%Z /\ next_token resp = None
  /\ exists detail,
       content resp
       = [ {| type := "text"; text := "Failed to list EKS clusters: " +:+ detail |} ]
       /\ logged (new_events run t)
          = [ (ctx, INFO, "Listing EKS clusters");
              (ctx, ERROR, "Failed to list EKS clusters: " +:+ detail) ].
Proof.
  intros run. subst run.
  run_cases aws self ctx max_results page_token include t H;
    rewrite (new_events_app _ _ _ _ H), H; cbn; intros [= <-]; cbn; intros Herr;
    try done; (repeat split; try done); by eexists.
Qed.

Lemma list_clusters_error_invariant_witness :
  let run :=
    list_clusters
      (Scenarios.mock_helper
         (Scenarios.mock_client
            (Returned {| clusters_key := None; nextToken_key := Some "more" |})))
      Scenarios.handler0 Scenarios.ctx0 (Some 5%Z) None None in
  let resp := error_envelope (KeyError "clusters") in
  clusters resp = [] /\ count resp = 0%Z /\ next_token resp = None
  /\ exists detail,
       content resp
       = [ {| type := "text"; text := "Failed to list EKS clusters: " +:+ detail |} ]
       /\ logged (new_events run [])
          = [ (Scenarios.ctx0, INFO, "Listing EKS clusters");
              (Scenarios.ctx0, ERROR, "Failed to list EKS clusters: " +:+ detail) ].
Proof.
  apply (list_clusters_error_invariant
           (Scenarios.mock_helper
              (Scenarios.mock_client
                 (Returned {| clusters_key := None; nextToken_key := Some "more" |})))
           Scenarios.handler0 Scenarios.ctx0 (Some 5%Z) None None []
           (error_envelope (KeyError "clusters"))).
  - reflexivity.
  - reflexivity.
Defined.

(** X4: an envelope with [isError = false] is consistent with itself
    and with the log: its text is "Successfully listed {count} EKS
    clusters" for its own [count], which is [len(clusters)], and the
    run's completion log entry is "Found {count} EKS clusters" at
    informational level; nothing is logged at error level. *)
Theorem list_clusters_success_consistent
    aws self ctx max_results page_token include t resp :
  let run := list_clusters aws self ctx max_results page_token include in
  (run t).1 = Returned resp ->
  isError resp = false ->
  content resp
  = [ {| type := "text";
         text := "Successfully listed " +:+ pretty (count resp) +:+ " EKS clusters" |} ]
  /\ count resp = len (clusters resp)
  /\ logged (new_events run t)
     = [ (ctx, INFO, "Listing EKS clusters");
         (ctx, INFO, "Found " +:+ pretty (count resp) +:+ " EKS clusters") ].
Proof.
  intros run. subst run.
  run_cases aws self ctx max_results page_token include t H;
    rewrite (new_events_app _ _ _ _ H), H; cbn; intros [= <-]; cbn; intros Herr;
    done.
Qed.

Lemma list_clusters_success_consistent_witness :
  let run :=
    list_clusters
      (Scenarios.mock_helper
         (Scenarios.mock_client
            (Returned {| clusters_key := Some ["a"; "b"]; nextToken_key := None |})))
      Scenarios.handler0 Scenarios.ctx0 None None None in
  let resp := success_envelope ["a"; "b"] None in
  content resp
  = [ {| type := "text";
         text := "Successfully listed " +:+ pretty (count resp) +:+ " EKS clusters" |} ]
  /\ count resp = len (clusters resp)
  /\ logged (new_events run [])
     = [ (Scenarios.ctx0, INFO, "Listing EKS clusters");
         (Scenarios.ctx0, INFO, "Found " +:+ pretty (count resp) +:+ " EKS clusters") ].
Proof.
  apply (list_clusters_success_consistent
           (Scenarios.mock_helper
              (Scenarios.mock_client
                 (Returned {| clusters_key := Some ["a"; "b"]; nextToken_key := None |})))
           Scenarios.handler0 Scenarios.ctx0 None None None []
           (success_envelope ["a"; "b"] None)).
  - reflexivity.
  - reflexivity.
Defined.

(** X5: when the upstream record has no ['clusters'] key, the text of
    the envelope is "Failed to list EKS clusters: 'clusters'", the
    [str] of the [KeyError], quotes included, and a ['nextToken'] the
    record may carry is dropped. *)
Theorem list_clusters_missing_clusters_message
    aws self ctx max_results page_token include t c (tok : option string) :
  helper_create_boto3_client aws "eks" = Returned c ->
  client_list_clusters c (build_params max_results page_token include)
    = Returned {| clusters_key := None; nextToken_key := tok |} ->
  (list_clusters aws self ctx max_results page_token include t).1
  = Returned
      {| isError := true;
         content :=
           [ {| type := "text"; text := "Failed to list EKS clusters: 'clusters'" |} ];
         clusters := [];
         count := 0;
         next_token := None |}.
Proof.
  intros Hf Hu.
  by rewrite (run_missing_clusters aws self ctx _ _ _ t c _ Hf Hu eq_refl).
Qed.

Lemma list_clusters_missing_clusters_message_witness :
  (list_clusters
     (Scenarios.mock_helper
        (Scenarios.mock_client
           (Returned {| clusters_key := None; nextToken_key := Some "more" |})))
     Scenarios.handler0 Scenarios.ctx0 (Some 5%Z) (Some "page2") None []).1
  = Returned
      {| isError := true;
         content :=
           [ {| type := "text"; text := "Failed to list EKS clusters: 'clusters'" |} ];
         clusters := [];
         count := 0;
         next_token := None |}.
Proof.
  apply (list_clusters_missing_clusters_message
           (Scenarios.mock_helper
              (Scenarios.mock_client
                 (Returned {| clusters_key := None; nextToken_key := Some "more" |})))
           Scenarios.handler0 Scenarios.ctx0 (Some 5%Z) (Some "page2") None []
           (Scenarios.mock_client
              (Returned {| clusters_key := None; nextToken_key := Some "more" |}))
           (Some "more")).
  - reflexivity.
  - reflexivity.
Defined.

(** ** Pagination *)

(** X6: the continuation token makes a round trip.  When a page was
    listed successfully and its envelope's [next_token] is given back
    as the [next_token] argument of a later invocation, the upstream
    call of that invocation carries ['nextToken'] with exactly the
    token of the earlier upstream record, and carries no ['nextToken']
    at all when that record had none, so that listing starts over. *)
Theorem list_clusters_token_round_trip
    aws1 aws2 self1 self2 ctx1 ctx2
    (max_results1 max_results2 : option Z) (token1 : option string)
    (include1 include2 : option (list string)) t1 t2 c1 c2 r cs :
  helper_create_boto3_client aws1 "eks" = Returned c1 ->
  client_list_clusters c1 (build_params max_results1 token1 include1) = Returned r ->
  clusters_key r = Some cs ->
  helper_create_boto3_client aws2 "eks" = Returned c2 ->
  exists page kwargs,
    (list_clusters aws1 self1 ctx1 max_results1 token1 include1 t1).1 = Returned page
    /\ upstream_calls
         (new_events
            (list_clusters aws2 self2 ctx2 max_results2 (next_token page) include2) t2)
       = [kwargs]
    /\ kwargs !! "nextToken" = VStr <$> nextToken_key r.
Proof.
  intros Hf1 Hu1 Hk Hf2.
  pose proof (run_success aws1 self1 ctx1 _ _ _ t1 c1 r cs Hf1 Hu1 Hk) as H1.
  exists (success_envelope cs (nextToken_key r)),
         (build_params max_results2 (nextToken_key r) include2).
  split; [by rewrite H1|]. cbn [next_token success_envelope]. split.
  - by apply (run_with_client aws2 self2 ctx2 max_results2 _ include2 t2 c2 Hf2).
  - apply build_params_lookup.
Qed.

Lemma list_clusters_token_round_trip_witness :
  exists page kwargs,
    (list_clusters (Scenarios.mock_helper Scenarios.strict_client)
       Scenarios.handler0 Scenarios.ctx0
       (Some 10%Z) (Some "current_token") (Some ["all"]) []).1 = Returned page
    /\ upstream_calls
         (new_events
            (list_clusters
               (Scenarios.mock_helper (Scenarios.mock_client (Raised Scenarios.api_error)))
               Scenarios.handler0 Scenarios.ctx0
               (Some 10%Z) (next_token page) None) [])
       = [kwargs]
    /\ kwargs !! "nextToken" = VStr <$> Some "next_page_token".
Proof.
  apply (list_clusters_token_round_trip
           (Scenarios.mock_helper Scenarios.strict_client)
           (Scenarios.mock_helper (Scenarios.mock_client (Raised Scenarios.api_error)))
           Scenarios.handler0 Scenarios.handler0 Scenarios.ctx0 Scenarios.ctx0
           (Some 10%Z) (Some 10%Z) (Some "current_token") (Some ["all"]) None [] []
           Scenarios.strict_client
           (Scenarios.mock_client (Raised Scenarios.api_error))
           {| clusters_key := Some ["cluster1"]; nextToken_key := Some "next_page_token" |}
           ["cluster1"]).
  - reflexivity.
  - vm_compute. reflexivity.
  - reflexivity.
  - reflexivity.
Defined.

(** ** The keyword dict *)

(** X7: the keyword dict loses nothing: two triples of arguments give
    the same dict only when they are the same triple.  In particular a
    supplied [0], empty string or empty list is told apart from an
    argument that was left out. *)
Theorem build_params_inj
    (max_results max_results' : option Z) (page_token page_token' : option string)
    (include include' : option (list string)) :
  build_params max_results page_token include
  = build_params max_results' page_token' include' ->
  max_results = max_results' /\ page_token = page_token' /\ include = include'.
Proof.
  intros Heq.
  destruct (build_params_lookup max_results page_token include)
    as (Hm & Ht & Hi & _).
  destruct (build_params_lookup max_results' page_token' include')
    as (Hm' & Ht' & Hi' & _).
  cbn zeta in *. rewrite Heq in Hm, Ht, Hi.
  rewrite Hm' in Hm. rewrite Ht' in Ht. rewrite Hi' in Hi.
  repeat split.
  - destruct max_results, max_results'; naive_solver.
  - destruct page_token, page_token'; naive_solver.
  - destruct include, include'; naive_solver.
Qed.

Lemma build_params_inj_witness :
  Some 0%Z = Some 0%Z /\ Some "" = Some "" /\ (None : option (list string)) = None.
Proof.
  apply (build_params_inj (Some 0%Z) (Some 0%Z) (Some "") (Some "") None None).
  reflexivity.
Defined.

(** X8: the dict has one key per supplied argument, and is empty only
    when all three arguments are left out. *)
Theorem build_params_size
    (max_results : option Z) (page_token : option string)
    (include : option (list string)) :
  size (build_params max_results page_token include)
  = supplied max_results + supplied page_token + supplied include
  /\ (build_params max_results page_token include = ∅
      <-> max_results = None /\ page_token = None /\ include = None).
Proof.
  split.
  - destruct max_results, page_token, include; reflexivity.
  - split.
    + intros Heq.
      destruct (build_params_lookup max_results page_token include)
        as (Hm & Ht & Hi & _).
      cbn zeta in *. rewrite Heq, lookup_empty in Hm, Ht, Hi.
      by destruct max_results, page_token, include.
    + by intros (-> & -> & ->).
Qed.

(** ** Successive invocations *)


